(** * The SMTP email relay service (main.py)

    A shallow embedding of the request handler [send_email], of the
    transport [send_email_smtp] and of the Python and library operations
    they call, followed by the properties of the service.

    Conventions.
    - A Python [str] is a [string]; a character stands for the code point
      of the same number (0..255).
    - A Python [int] is a [Z].
    - Exceptions are the [Raise] results of the monad [M]; the SMTP
      session, the console and the clock are explicit: calls to the SMTP
      server are recorded in [smtp_log], their outcomes are given by a
      [World]. *)

From Stdlib Require Import ZArith List String Ascii Bool Lia.
From Stdlib Require Import DecimalString DecimalZ.
Import ListNotations.

Open Scope string_scope.
Open Scope Z_scope.

(* ------------------------------------------------------------------ *)
(** ** Python strings and integers *)

Definition code (c : ascii) : Z := Z.of_N (N_of_ascii c).

Definition chr (n : Z) : ascii := ascii_of_N (Z.to_N n).

Definition in_range (lo hi : Z) (c : ascii) : bool :=
  (lo <=? code c) && (code c <=? hi).

Definition is_digit (c : ascii) : bool := in_range 48 57 c.

Definition digit_value (c : ascii) : Z := code c - 48.

Definition digit_char (d : Z) : ascii := chr (48 + d).

(** Truthiness of a [str]: only the empty string is false. *)
Definition truthy (s : string) : bool :=
  match s with
  | EmptyString => false
  | String _ _ => true
  end.

(** [all([...])] over a list of strings. *)
Definition all (l : list string) : bool := forallb truthy l.

(** [str(n)] and [f"{n}"] for an int: the decimal rendering, with a
    leading minus sign for a negative number. *)
Definition str_int (n : Z) : string := NilZero.string_of_int (Z.to_int n).

(** Characters that [int()] skips around a numeral: the ASCII white
    space and, among the other code points below 256, NEL and NBSP.
    (The separators 28..31 are white space for [str.strip] but not for
    [int()].) *)
Definition int_space (c : ascii) : bool :=
  in_range 9 13 c || (code c =? 32) || (code c =? 133) || (code c =? 160).

Fixpoint skip_spaces (s : string) : string :=
  match s with
  | String c s' => if int_space c then skip_spaces s' else s
  | EmptyString => s
  end.

(** The digits of a numeral after its first digit: digits, each
    underscore between two digits.  Returns the value read and what
    follows the numeral. *)
Fixpoint int_digits (acc : Z) (s : string) : option (Z * string) :=
  match s with
  | String c s' =>
      if is_digit c then int_digits (10 * acc + digit_value c) s'
      else if (code c =? 95) then
        match s' with
        | String d s'' =>
            if is_digit d then int_digits (10 * acc + digit_value d) s''
            else None
        | EmptyString => None
        end
      else Some (acc, s)
  | EmptyString => Some (acc, s)
  end.

Definition int_unsigned (s : string) : option Z :=
  match s with
  | String c s' =>
      if is_digit c then
        match int_digits (digit_value c) s' with
        | Some (n, rest) =>
            match skip_spaces rest with
            | EmptyString => Some n
            | String _ _ => None
            end
        | None => None
        end
      else None
  | EmptyString => None
  end.

(** [int(s)] for a [str]: [None] when Python raises [ValueError]. *)
Definition int (s : string) : option Z :=
  match skip_spaces s with
  | String c s' =>
      if code c =? 43 then int_unsigned s'
      else if code c =? 45 then option_map Z.opp (int_unsigned s')
      else int_unsigned (String c s')
  | EmptyString => None
  end.

(** [repr(s)], as it appears in the message of the [ValueError]. *)
Definition quote1 : ascii := chr 39.
Definition quote2 : ascii := chr 34.
Definition backslash : ascii := chr 92.

Fixpoint contains_char (q : ascii) (s : string) : bool :=
  match s with
  | EmptyString => false
  | String c s' => Ascii.eqb c q || contains_char q s'
  end.

Definition printable (c : ascii) : bool :=
  in_range 32 126 c || in_range 161 172 c || in_range 174 255 c.

Definition hex_digit (d : Z) : ascii :=
  if d <? 10 then chr (48 + d) else chr (87 + d).

Definition repr_char (q c : ascii) : string :=
  if Ascii.eqb c q || Ascii.eqb c backslash then String backslash (String c EmptyString)
  else if code c =? 9 then String backslash "t"
  else if code c =? 10 then String backslash "n"
  else if code c =? 13 then String backslash "r"
  else if printable c then String c EmptyString
  else String backslash
         (String "x" (String (hex_digit (code c / 16))
                        (String (hex_digit (code c mod 16)) EmptyString))).

Fixpoint repr_body (q : ascii) (s : string) : string :=
  match s with
  | EmptyString => EmptyString
  | String c s' => repr_char q c ++ repr_body q s'
  end.

Definition repr (s : string) : string :=
  let q := if contains_char quote1 s && negb (contains_char quote2 s)
           then quote2 else quote1 in
  String q (repr_body q s ++ String q EmptyString).

(* ------------------------------------------------------------------ *)
(** ** The request and response models *)

Record CustomerDetails := {
  name : string;
  email : string;
  phone : string
}.

Record BookingDetails := {
  room : string;
  dates : string
}.

Record EmailSettings := {
  SMTP_SERVER : string;
  SMTP_PORT : string;
  SMTP_USERNAME : string;
  SMTP_PASSWORD : string;
  SMTP_FROM_NAME : string
}.

Record SendEmailRequest := {
  recipients : list string;
  payment_id : Z;
  timestamp : Z;
  customer_details : CustomerDetails;
  booking_details : BookingDetails;
  HTML_PAGE : string;
  email_settings : EmailSettings
}.

(** The response model has a field [timestamp] of its own. *)
Module Response.

Record EmailResponse := {
  message : string;
  sent_to : list string;
  timestamp : string
}.

End Response.
Import Response (EmailResponse).

(* ------------------------------------------------------------------ *)
(** ** datetime *)

Definition is_leap (y : Z) : bool :=
  (y mod 4 =? 0) && (negb (y mod 100 =? 0) || (y mod 400 =? 0)).

Definition days_in_month (y m : Z) : Z :=
  if m =? 2 then (if is_leap y then 29 else 28)
  else if (m =? 4) || (m =? 6) || (m =? 9) || (m =? 11) then 30
  else 31.

Definition between (lo hi n : Z) : bool := (lo <=? n) && (n <=? hi).

(** The ranges that the [datetime] constructor enforces. *)
Definition datetime_ok (y mo d h mi s us : Z) : bool :=
  between 1 9999 y && between 1 12 mo && between 1 (days_in_month y mo) d
  && between 0 23 h && between 0 59 mi && between 0 59 s && between 0 999999 us.

(** A naive [datetime] object: its fields, within their ranges. *)
Record datetime := {
  year : Z;
  month : Z;
  day : Z;
  hour : Z;
  minute : Z;
  second : Z;
  microsecond : Z;
  in_ranges : datetime_ok year month day hour minute second microsecond = true
}.

(** ["%0wd" % n] for [0 <= n < 10^w], which [in_ranges] gives for every
    field that [isoformat] prints. *)
Fixpoint zero_padded (w : nat) (n : Z) : string :=
  match w with
  | O => EmptyString
  | S w' => String (digit_char ((n / 10 ^ Z.of_nat w') mod 10)) (zero_padded w' n)
  end.

(** [d.isoformat()] for a naive datetime: the fraction is printed only
    when the microseconds are not zero. *)
Definition isoformat (d : datetime) : string :=
  zero_padded 4 (year d) ++ "-" ++ zero_padded 2 (month d) ++ "-"
  ++ zero_padded 2 (day d) ++ "T" ++ zero_padded 2 (hour d) ++ ":"
  ++ zero_padded 2 (minute d) ++ ":" ++ zero_padded 2 (second d)
  ++ (if microsecond d =? 0 then EmptyString
      else "." ++ zero_padded 6 (microsecond d)).

(* ------------------------------------------------------------------ *)
(** ** MIME messages *)

(** [MIMEText(text, subtype)]. *)
Record MIMEText := {
  text : string;
  text_subtype : string
}.

(** A multipart message: its headers in the order they were set, and
    the parts attached to it. *)
Record MIMEMultipart := {
  subtype : string;
  headers : list (string * string);
  parts : list MIMEText
}.

(** [MIMEMultipart(subtype)]: the constructor sets two headers. *)
Definition MIMEMultipart_new (sub : string) : MIMEMultipart :=
  {| subtype := sub;
     headers := [("Content-Type", "multipart/" ++ sub); ("MIME-Version", "1.0")];
     parts := [] |}.

(** [msg[name] = value] appends a header. *)
Definition set_header (name value : string) (msg : MIMEMultipart) : MIMEMultipart :=
  {| subtype := subtype msg;
     headers := (headers msg ++ [(name, value)])%list;
     parts := parts msg |}.

(** [msg.attach(part)]. *)
Definition attach (part : MIMEText) (msg : MIMEMultipart) : MIMEMultipart :=
  {| subtype := subtype msg;
     headers := headers msg;
     parts := (parts msg ++ [part])%list |}.

Definition lower_char (c : ascii) : ascii :=
  if in_range 65 90 c then chr (code c + 32) else c.

Fixpoint lower (s : string) : string :=
  match s with
  | EmptyString => EmptyString
  | String c s' => String (lower_char c) (lower s')
  end.

(** [msg[name]]: the first header of that name, names compared without
    case. *)
Fixpoint find_header (name : string) (hs : list (string * string)) : option string :=
  match hs with
  | [] => None
  | (n, v) :: hs' =>
      if String.eqb (lower n) (lower name) then Some v else find_header name hs'
  end.

Definition get_header (name : string) (msg : MIMEMultipart) : option string :=
  find_header name (headers msg).

(** [msg.get_all(name)]: every header of that name. *)
Definition get_all (name : string) (msg : MIMEMultipart) : list string :=
  map snd (filter (fun h => String.eqb (lower (fst h)) (lower name)) (headers msg)).

(* ------------------------------------------------------------------ *)
(** ** Exceptions, the world, and the state *)

(** The exceptions of a run: FastAPI's [HTTPException], the
    [ValueError] of [int()], and [SMTPException] for whatever a call of
    smtplib or of the email package raises (an SMTP error, an [OSError]
    of the socket, an encoding error). All are subclasses of
    [Exception]. *)
Inductive exn :=
| HTTPException (status_code : Z) (detail : string)
| ValueError (msg : string)
| SMTPException (msg : string).

(** [str(e)]. *)
Definition str_exn (e : exn) : string :=
  match e with
  | HTTPException s d => str_int s ++ ": " ++ d
  | ValueError m => m
  | SMTPException m => m
  end.

(** What a library call does: it returns a value or raises. *)
Inductive outcome (A : Type) :=
| Returns (a : A)
| Raises (msg : string).
Arguments Returns {A} a.
Arguments Raises {A} msg.

(** Everything outside the program that one request meets: the answers
    of the SMTP server to each step, the serialisation of the message by
    the email package, and the clock.
    - [connect host port]: [smtplib.SMTP(host, port)] with a host;
    - [starttls], [login user password]: the calls of those names;
    - [as_string msg]: [msg.as_string()];
    - [sendmail from_addr to_addrs msg]: returns the recipients the
      server refused when it accepted at least one, raises otherwise;
    - [quit]: the QUIT on leaving the [with] block raises when the
      server answers with an error; the connection is closed either way;
    - [now]: [datetime.now()]. *)
Record World := {
  connect : string -> Z -> outcome unit;
  starttls : outcome unit;
  login : string -> string -> outcome unit;
  as_string : MIMEMultipart -> outcome string;
  sendmail : string -> list string -> string -> outcome (list string);
  quit : outcome unit;
  now : datetime
}.

(** The calls that reach the SMTP server. *)
Inductive SmtpEvent :=
| Connect (host : string) (port : Z)
| StartTLS
| Login (user password : string)
| Sendmail (from_addr : string) (to_addrs : list string) (msg : string)
| Close.

Record State := {
  open_connections : nat;
  smtp_log : list SmtpEvent;
  stdout : list string
}.

Definition initial : State :=
  {| open_connections := 0; smtp_log := []; stdout := [] |}.

Inductive result (A : Type) :=
| Return (a : A)
| Raise (e : exn).
Arguments Return {A} a.
Arguments Raise {A} e.

Definition M (A : Type) : Type := State -> result A * State.

Definition ret {A} (a : A) : M A := fun st => (Return a, st).

Definition raise {A} (e : exn) : M A := fun st => (Raise e, st).

Definition bind {A B} (m : M A) (k : A -> M B) : M B :=
  fun st =>
    match m st with
    | (Return a, st') => k a st'
    | (Raise e, st') => (Raise e, st')
    end.

(** [try: body except Exception as e: handler]. *)
Definition try_except {A} (body : M A) (handler : exn -> M A) : M A :=
  fun st =>
    match body st with
    | (Return a, st') => (Return a, st')
    | (Raise e, st') => handler e st'
    end.

(** [with ctor as x: body]: [exit x] runs however the body ends; what it
    raises replaces the result of the body. *)
Definition with_as {R A} (ctor : M R) (exit : R -> M unit) (body : R -> M A) : M A :=
  bind ctor (fun x st =>
    match body x st with
    | (r, st') =>
        match exit x st' with
        | (Return _, st'') => (r, st'')
        | (Raise e, st'') => (Raise e, st'')
        end
    end).

Notation "x <- c1 ;; c2" := (bind c1 (fun x => c2))
  (at level 61, c1 at next level, right associativity).
Notation "c1 ;; c2" := (bind c1 (fun _ => c2))
  (at level 61, right associativity).

Definition log_event (ev : SmtpEvent) (st : State) : State :=
  {| open_connections := open_connections st;
     smtp_log := (smtp_log st ++ [ev])%list;
     stdout := stdout st |}.

Definition set_open (n : nat) (st : State) : State :=
  {| open_connections := n; smtp_log := smtp_log st; stdout := stdout st |}.

(** [print(line)]. *)
Definition print (line : string) : M unit :=
  fun st =>
    (Return tt,
     {| open_connections := open_connections st;
        smtp_log := smtp_log st;
        stdout := (stdout st ++ [line])%list |}).

Definition of_outcome {A} (o : outcome A) : result A :=
  match o with
  | Returns a => Return a
  | Raises m => Raise (SMTPException m)
  end.

(** A call on a connected session: recorded, answered by the world. *)
Definition smtp_call {A} (ev : SmtpEvent) (o : outcome A) : M A :=
  fun st => (of_outcome o, log_event ev st).

(* ------------------------------------------------------------------ *)
(** ** smtplib.SMTP *)

(** A session object; [sock] tells whether it holds a connection. *)
Record SMTP := { sock : bool }.

Section Service.

Variable w : World.

(** [smtplib.SMTP(host, port)]: with a host it connects, and raises when
    that fails (nothing stays open then); without one it returns a
    session that is not connected. *)
Definition SMTP_new (host : string) (port : Z) : M SMTP :=
  if truthy host then
    fun st =>
      match connect w host port with
      | Returns _ =>
          (Return {| sock := true |},
           set_open (S (open_connections st)) (log_event (Connect host port) st))
      | Raises m => (Raise (SMTPException m), log_event (Connect host port) st)
      end
  else ret {| sock := false |}.

Definition not_connected {A} : M A :=
  raise (SMTPException "please run connect() first").

Definition SMTP_starttls (server : SMTP) : M unit :=
  if sock server then smtp_call StartTLS (starttls w) else not_connected.

Definition SMTP_login (server : SMTP) (user password : string) : M unit :=
  if sock server then smtp_call (Login user password) (login w user password)
  else not_connected.

Definition SMTP_sendmail (server : SMTP) (from_addr : string)
    (to_addrs : list string) (msg : string) : M (list string) :=
  if sock server
  then smtp_call (Sendmail from_addr to_addrs msg) (sendmail w from_addr to_addrs msg)
  else not_connected.

(** [__exit__]: QUIT, then [close()] in a [finally]. *)
Definition SMTP_exit (server : SMTP) : M unit :=
  if sock server then
    fun st =>
      (of_outcome (quit w),
       set_open (Nat.pred (open_connections st)) (log_event Close st))
  else ret tt.

(** [msg.as_string()]. *)
Definition MIMEMultipart_as_string (msg : MIMEMultipart) : M string :=
  fun st => (of_outcome (as_string w msg), st).

(** The message of the [ValueError] of [int(s)]; it shows at most 200
    characters of [repr(s)]. *)
Definition invalid_literal (s : string) : string :=
  "invalid literal for int() with base 10: " ++ substring 0 200 (repr s).

(** [int(s)] as a computation. *)
Definition int_M (s : string) : M Z :=
  match int s with
  | Some n => ret n
  | None => raise (ValueError (invalid_literal s))
  end.

(** [datetime.now()]. *)
Definition datetime_now : M datetime := ret (now w).

(* ------------------------------------------------------------------ *)
(** ** main.py *)

Definition To_placeholder : string := "undisclosed-recipients:;".

(** Lines 62 to 68 of [send_email_smtp]: the message. *)
Definition build_message (subject html_content : string)
    (email_settings : EmailSettings) : MIMEMultipart :=
  let msg := MIMEMultipart_new "alternative" in
  let msg := set_header "Subject" subject msg in
  let msg := set_header "From"
               (SMTP_FROM_NAME email_settings ++ " <"
                ++ SMTP_USERNAME email_settings ++ ">") msg in
  let msg := set_header "To" To_placeholder msg in
  let html_part := {| text := html_content; text_subtype := "html" |} in
  attach html_part msg.

Definition send_email_smtp (to_emails : list string) (subject html_content : string)
    (email_settings : EmailSettings) : M bool :=
  try_except
    (let msg := build_message subject html_content email_settings in
     port <- int_M (SMTP_PORT email_settings) ;;
     with_as (SMTP_new (SMTP_SERVER email_settings) port) SMTP_exit
       (fun server =>
          SMTP_starttls server ;;
          SMTP_login server (SMTP_USERNAME email_settings)
                            (SMTP_PASSWORD email_settings) ;;
          s <- MIMEMultipart_as_string msg ;;
          SMTP_sendmail server (SMTP_USERNAME email_settings) to_emails s) ;;
     ret true)
    (fun e =>
       print ("Error sending email: " ++ str_exn e) ;;
       ret false).

Definition settings_fields (s : EmailSettings) : list string :=
  [SMTP_SERVER s; SMTP_PORT s; SMTP_USERNAME s; SMTP_PASSWORD s; SMTP_FROM_NAME s].

Definition make_subject (request : SendEmailRequest) : string :=
  "Order Confirmed - Payment ID: " ++ str_int (payment_id request).

Definition send_email (request : SendEmailRequest) : M EmailResponse :=
  try_except
    (match recipients request with
     | [] => raise (HTTPException 400 "At least one recipient is required")
     | _ :: _ =>
         if negb (all (settings_fields (email_settings request))) then
           raise (HTTPException 400 "All email settings are required")
         else
           let subject := make_subject request in
           let html_content := HTML_PAGE request in
           success <- send_email_smtp (recipients request) subject html_content
                        (email_settings request) ;;
           if negb success then
             raise (HTTPException 500 "Failed to send email")
           else
             t <- datetime_now ;;
             ret {| Response.message := "Email sent successfully";
                    Response.sent_to := recipients request;
                    Response.timestamp := isoformat t |}
     end)
    (fun e =>
       match e with
       | HTTPException _ _ => raise e
       | _ => raise (HTTPException 500 ("Error sending email: " ++ str_exn e))
       end).

(* ------------------------------------------------------------------ *)
(** ** The route, as FastAPI serves it *)

Inductive HTTPResponse :=
| Json200 (body : EmailResponse)
| JsonError (status_code : Z) (detail : string)
| Unprocessable422
| InternalServerError500.

(** A returned model is a 200, an [HTTPException] becomes its status and
    its detail, anything else is the server's plain 500. *)
Definition respond (r : result EmailResponse) : HTTPResponse :=
  match r with
  | Return body => Json200 body
  | Raise (HTTPException s d) => JsonError s d
  | Raise _ => InternalServerError500
  end.

(** POST /send-email with a body that parsed into the request model. *)
Definition post_send_email (request : SendEmailRequest) (st : State)
    : HTTPResponse * State :=
  let (r, st') := send_email request st in (respond r, st').

Section Intake.

(** The check behind [EmailStr]: the normalised address, or [None] for
    a string that is not an address. *)
Variable validate_email : string -> option string.

Fixpoint validate_list (l : list string) : option (list string) :=
  match l with
  | [] => Some []
  | a :: l' =>
      match validate_email a, validate_list l' with
      | Some a', Some l'' => Some (a' :: l'')
      | _, _ => None
      end
  end.

(** Validation of the fields that are declared [EmailStr], on a body
    whose fields have the declared JSON types. *)
Definition parse_request (body : SendEmailRequest) : option SendEmailRequest :=
  match validate_list (recipients body),
        validate_email (email (customer_details body)) with
  | Some rs, Some e =>
      Some {| recipients := rs;
              payment_id := payment_id body;
              timestamp := timestamp body;
              customer_details :=
                {| name := name (customer_details body);
                   email := e;
                   phone := phone (customer_details body) |};
              booking_details := booking_details body;
              HTML_PAGE := HTML_PAGE body;
              email_settings := email_settings body |}
  | _, _ => None
  end.

(** POST /send-email: a body that fails validation is answered 422 and
    the handler is not called. *)
Definition route_send_email (body : SendEmailRequest) (st : State)
    : HTTPResponse * State :=
  match parse_request body with
  | Some request => post_send_email request st
  | None => (Unprocessable422, st)
  end.

End Intake.

End Service.

(* ------------------------------------------------------------------ *)
(** ** What one call of the transport does, in closed form *)

(** The answer of the transport and the calls it makes on the server,
    read off the world step by step. *)
Definition session (w : World) (to_emails : list string)
    (subject html_content : string) (es : EmailSettings) : bool * list SmtpEvent :=
  let host := SMTP_SERVER es in
  let user := SMTP_USERNAME es in
  let password := SMTP_PASSWORD es in
  match int (SMTP_PORT es) with
  | None => (false, [])
  | Some port =>
      if truthy host then
        match connect w host port with
        | Raises _ => (false, [Connect host port])
        | Returns _ =>
            match starttls w with
            | Raises _ => (false, [Connect host port; StartTLS; Close])
            | Returns _ =>
                match login w user password with
                | Raises _ =>
                    (false, [Connect host port; StartTLS; Login user password; Close])
                | Returns _ =>
                    match as_string w (build_message subject html_content es) with
                    | Raises _ =>
                        (false,
                         [Connect host port; StartTLS; Login user password; Close])
                    | Returns s =>
                        let evs := [Connect host port; StartTLS; Login user password;
                                    Sendmail user to_emails s; Close] in
                        match sendmail w user to_emails s, quit w with
                        | Returns _, Returns _ => (true, evs)
                        | _, _ => (false, evs)
                        end
                    end
                end
            end
        end
      else (false, [])
  end.

Definition after (st : State) (evs : list SmtpEvent) (out : list string) : State :=
  {| open_connections := open_connections st;
     smtp_log := (smtp_log st ++ evs)%list;
     stdout := (stdout st ++ out)%list |}.

(* ------------------------------------------------------------------ *)
(** ** Well-formed requests and the handler in closed form *)

(** A request that passes the two checks of the handler, in the words
    of the specification: some recipient, and none of the five settings
    empty. *)
Definition well_formed (r : SendEmailRequest) : Prop :=
  recipients r <> []
  /\ SMTP_SERVER (email_settings r) <> EmptyString
  /\ SMTP_PORT (email_settings r) <> EmptyString
  /\ SMTP_USERNAME (email_settings r) <> EmptyString
  /\ SMTP_PASSWORD (email_settings r) <> EmptyString
  /\ SMTP_FROM_NAME (email_settings r) <> EmptyString.

(** One of the five settings is the empty string. *)
Definition some_setting_empty (r : SendEmailRequest) : Prop :=
  SMTP_SERVER (email_settings r) = EmptyString
  \/ SMTP_PORT (email_settings r) = EmptyString
  \/ SMTP_USERNAME (email_settings r) = EmptyString
  \/ SMTP_PASSWORD (email_settings r) = EmptyString
  \/ SMTP_FROM_NAME (email_settings r) = EmptyString.

(** The call of the transport that the handler makes for a request. *)
Definition transport (w : World) (r : SendEmailRequest) : M bool :=
  send_email_smtp w (recipients r) (make_subject r) (HTML_PAGE r) (email_settings r).

Definition request_session (w : World) (r : SendEmailRequest) : bool * list SmtpEvent :=
  session w (recipients r) (make_subject r) (HTML_PAGE r) (email_settings r).

(** The message the transport builds for a request. *)
Definition request_message (r : SendEmailRequest) : MIMEMultipart :=
  build_message (make_subject r) (HTML_PAGE r) (email_settings r).

Definition success_body (w : World) (r : SendEmailRequest) : EmailResponse :=
  {| Response.message := "Email sent successfully";
     Response.sent_to := recipients r;
     Response.timestamp := isoformat (now w) |}.

(* ------------------------------------------------------------------ *)
(** ** The vocabulary of the properties *)

(** [needle in hay] for two strings. *)
Fixpoint contains (needle hay : string) : bool :=
  prefix needle hay
  || match hay with
     | EmptyString => false
     | String _ hay' => contains needle hay'
     end.

Definition at_sign : ascii := chr 64.

(** A library call raises. *)
Definition raises {A} (o : outcome A) : Prop := exists m, o = Raises m.

(** One of the four steps of the SMTP dialogue raises for this request:
    the connection, the TLS upgrade, the authentication or the
    submission. *)
Definition smtp_step_raises (w : World) (r : SendEmailRequest) : Prop :=
  let es := email_settings r in
  (exists port, int (SMTP_PORT es) = Some port
                /\ raises (connect w (SMTP_SERVER es) port))
  \/ raises (starttls w)
  \/ raises (login w (SMTP_USERNAME es) (SMTP_PASSWORD es))
  \/ (exists s, as_string w (request_message r) = Returns s
                /\ raises (sendmail w (SMTP_USERNAME es) (recipients r) s)).





(** Two requests that differ at most in their [timestamp]. *)
Definition same_but_timestamp (r1 r2 : SendEmailRequest) : Prop :=
  recipients r1 = recipients r2
  /\ payment_id r1 = payment_id r2
  /\ customer_details r1 = customer_details r2
  /\ booking_details r1 = booking_details r2
  /\ HTML_PAGE r1 = HTML_PAGE r2
  /\ email_settings r1 = email_settings r2.

(** *** ISO 8601 *)

(** Reads exactly [w] digits. *)
Fixpoint read_digits (w : nat) (acc : Z) (s : string) : option (Z * string) :=
  match w with
  | O => Some (acc, s)
  | S w' =>
      match s with
      | String c s' =>
          if is_digit c then read_digits w' (10 * acc + digit_value c) s' else None
      | EmptyString => None
      end
  end.

(** Reads [w] digits and then the separator [sep]. *)
Definition read_field (w : nat) (sep : ascii) (s : string) : option (Z * string) :=
  match read_digits w 0 s with
  | Some (n, String c s') => if Ascii.eqb c sep then Some (n, s') else None
  | _ => None
  end.

Fixpoint all_digits (s : string) : bool :=
  match s with
  | EmptyString => true
  | String c s' => is_digit c && all_digits s'
  end.

(** Nothing, or a point and at least one digit. *)
Definition is_fraction (s : string) : bool :=
  match s with
  | EmptyString => true
  | String c f => Ascii.eqb c "." && truthy f && all_digits f
  end.

Definition bind_option {A B} (o : option A) (k : A -> option B) : option B :=
  match o with
  | Some a => k a
  | None => None
  end.

(** A calendar date and a time of day in the extended format
    YYYY-MM-DDThh:mm:ss with an optional decimal fraction of the
    second, every field within its range. *)
Definition is_iso8601 (s : string) : bool :=
  match
    bind_option (read_field 4 "-" s) (fun '(y, s1) =>
    bind_option (read_field 2 "-" s1) (fun '(mo, s2) =>
    bind_option (read_field 2 "T" s2) (fun '(d, s3) =>
    bind_option (read_field 2 ":" s3) (fun '(h, s4) =>
    bind_option (read_field 2 ":" s4) (fun '(mi, s5) =>
    bind_option (read_digits 2 0 s5) (fun '(sec, s6) =>
      Some (between 1 12 mo && between 1 (days_in_month y mo) d
            && between 0 23 h && between 0 59 mi && between 0 59 sec
            && is_fraction s6)))))))
  with
  | Some b => b
  | None => false
  end.

(* ------------------------------------------------------------------ *)
(** ** Sample worlds and requests *)

Definition render (msg : MIMEMultipart) : string :=
  String.concat "; " (map (fun h => fst h ++ ": " ++ snd h) (headers msg)).

(** A server that accepts everything. *)
Definition obliging : World :=
  {| connect := fun _ _ => Returns tt;
     starttls := Returns tt;
     login := fun _ _ => Returns tt;
     as_string := fun msg => Returns (render msg);
     sendmail := fun _ _ _ => Returns [];
     quit := Returns tt;
     now := {| year := 2024; month := 2; day := 29; hour := 9; minute := 5;
               second := 7; microsecond := 1250; in_ranges := eq_refl |} |}.

(** A host on which nothing listens. *)
Definition unreachable : World :=
  {| connect := fun _ _ => Raises "[Errno 111] Connection refused";
     starttls := starttls obliging;
     login := login obliging;
     as_string := as_string obliging;
     sendmail := sendmail obliging;
     quit := quit obliging;
     now := now obliging |}.

Definition sample_settings : EmailSettings :=
  {| SMTP_SERVER := "smtp.example.com";
     SMTP_PORT := "587";
     SMTP_USERNAME := "relay@example.com";
     SMTP_PASSWORD := "secret";
     SMTP_FROM_NAME := "The Float" |}.

Definition sample_request : SendEmailRequest :=
  {| recipients := ["guest@example.com"; "desk@example.com"];
     payment_id := 4711;
     timestamp := 1700000000;
     customer_details :=
       {| name := "A. Guest"; email := "guest@example.com"; phone := "555-0100" |};
     booking_details := {| room := "Deck 2"; dates := "2024-03-01 to 2024-03-04" |};
     HTML_PAGE := "<html><body>Booked.</body></html>";
     email_settings := sample_settings |}.

Definition with_recipients (l : list string) (r : SendEmailRequest) : SendEmailRequest :=
  {| recipients := l;
     payment_id := payment_id r;
     timestamp := timestamp r;
     customer_details := customer_details r;
     booking_details := booking_details r;
     HTML_PAGE := HTML_PAGE r;
     email_settings := email_settings r |}.

Definition with_timestamp (t : Z) (r : SendEmailRequest) : SendEmailRequest :=
  {| recipients := recipients r;
     payment_id := payment_id r;
     timestamp := t;
     customer_details := customer_details r;
     booking_details := booking_details r;
     HTML_PAGE := HTML_PAGE r;
     email_settings := email_settings r |}.

Definition with_settings (es : EmailSettings) (r : SendEmailRequest) : SendEmailRequest :=
  {| recipients := recipients r;
     payment_id := payment_id r;
     timestamp := timestamp r;
     customer_details := customer_details r;
     booking_details := booking_details r;
     HTML_PAGE := HTML_PAGE r;
     email_settings := es |}.

Definition with_port (p : string) (es : EmailSettings) : EmailSettings :=
  {| SMTP_SERVER := SMTP_SERVER es;
     SMTP_PORT := p;
     SMTP_USERNAME := SMTP_USERNAME es;
     SMTP_PASSWORD := SMTP_PASSWORD es;
     SMTP_FROM_NAME := SMTP_FROM_NAME es |}.

Definition with_server (h : string) (es : EmailSettings) : EmailSettings :=
  {| SMTP_SERVER := h;
     SMTP_PORT := SMTP_PORT es;
     SMTP_USERNAME := SMTP_USERNAME es;
     SMTP_PASSWORD := SMTP_PASSWORD es;
     SMTP_FROM_NAME := SMTP_FROM_NAME es |}.

(** A stand-in for the address check: one at sign, with something on
    both sides. *)
Definition plain_address (s : string) : option string :=
  match index 0 "@" s with
  | Some (S i) =>
      if contains_char at_sign (substring (S (S i)) (String.length s) s) then None
      else if truthy (substring (S (S i)) (String.length s) s) then Some s
      else None
  | _ => None
  end.

(** The number that a run of decimal digits denotes, read from the left
    after the number [acc]. *)
Fixpoint uint_value (acc : Z) (d : Decimal.uint) : Z :=
  match d with
  | Decimal.Nil => acc
  | Decimal.D0 l => uint_value (10 * acc) l
  | Decimal.D1 l => uint_value (10 * acc + 1) l
  | Decimal.D2 l => uint_value (10 * acc + 2) l
  | Decimal.D3 l => uint_value (10 * acc + 3) l
  | Decimal.D4 l => uint_value (10 * acc + 4) l
  | Decimal.D5 l => uint_value (10 * acc + 5) l
  | Decimal.D6 l => uint_value (10 * acc + 6) l
  | Decimal.D7 l => uint_value (10 * acc + 7) l
  | Decimal.D8 l => uint_value (10 * acc + 8) l
  | Decimal.D9 l => uint_value (10 * acc + 9) l
  end.

(** The characters that can occur in a string that [int()] reads:
    digits, white space, the two signs and the underscore. *)
Definition numeral_char (c : ascii) : bool :=
  is_digit c || int_space c || (code c =? 43) || (code c =? 45) || (code c =? 95).

(** The string has a character of another kind. *)
Fixpoint has_foreign (s : string) : bool :=
  match s with
  | EmptyString => false
  | String c s' => negb (numeral_char c) || has_foreign s'
  end.

(** A server that accepts the message for some recipients only:
    [sendmail] returns the ones it refused. *)
Definition choosy : World :=
  {| connect := connect obliging;
     starttls := starttls obliging;
     login := login obliging;
     as_string := as_string obliging;
     sendmail := fun _ to_addrs _ => Returns (tl to_addrs);
     quit := quit obliging;
     now := now obliging |}.

(* ------------------------------------------------------------------ *)
(** ** More vocabulary: what the transport catches and prints *)

(** Leaving the [with] block: an error of the QUIT replaces whatever
    the body raised. *)
Definition on_exit (w : World) (body_error : option exn) : option exn :=
  match quit w with
  | Raises m => Some (SMTPException m)
  | Returns _ => body_error
  end.

(** The exception that reaches the [except] clause of the transport,
    [None] when there is none. *)
Definition session_error (w : World) (to_emails : list string)
    (subject html_content : string) (es : EmailSettings) : option exn :=
  match int (SMTP_PORT es) with
  | None => Some (ValueError (invalid_literal (SMTP_PORT es)))
  | Some port =>
      if truthy (SMTP_SERVER es) then
        match connect w (SMTP_SERVER es) port with
        | Raises m => Some (SMTPException m)
        | Returns _ =>
            on_exit w
              match starttls w with
              | Raises m => Some (SMTPException m)
              | Returns _ =>
                  match login w (SMTP_USERNAME es) (SMTP_PASSWORD es) with
                  | Raises m => Some (SMTPException m)
                  | Returns _ =>
                      match as_string w (build_message subject html_content es) with
                      | Raises m => Some (SMTPException m)
                      | Returns s =>
                          match sendmail w (SMTP_USERNAME es) to_emails s with
                          | Raises m => Some (SMTPException m)
                          | Returns _ => None
                          end
                      end
                  end
              end
        end
      else Some (SMTPException "please run connect() first")
  end.

(** What the transport prints. *)
Definition session_output (w : World) (to_emails : list string)
    (subject html_content : string) (es : EmailSettings) : list string :=
  match session_error w to_emails subject html_content es with
  | None => []
  | Some e => [append "Error sending email: " (str_exn e)]
  end.


(** The world [w] with another report of refused recipients from each
    submission that the server accepts. *)
Definition reporting (f : list string -> list string) (w : World) : World :=
  {| connect := connect w;
     starttls := starttls w;
     login := login w;
     as_string := as_string w;
     sendmail := fun from_addr to_addrs msg =>
                   match sendmail w from_addr to_addrs msg with
                   | Returns refused => Returns (f refused)
                   | Raises m => Raises m
                   end;
     quit := quit w;
     now := now w |}.

(** Two requests that agree on the four fields the handler reads. *)
Definition same_used_fields (r1 r2 : SendEmailRequest) : Prop :=
  recipients r1 = recipients r2
  /\ payment_id r1 = payment_id r2
  /\ HTML_PAGE r1 = HTML_PAGE r2
  /\ email_settings r1 = email_settings r2.



Definition status_of (resp : HTTPResponse) : Z :=
  match resp with
  | Json200 _ => 200
  | JsonError s _ => s
  | Unprocessable422 => 422
  | InternalServerError500 => 500
  end.


Example int_plain : int "587" = Some 587.
Proof. reflexivity. Qed.

Example int_lenient : int " +5_87 " = Some 587 /\ int "-25" = Some (-25).
Proof. split; reflexivity. Qed.

Example int_rejects :
  map int ["smtp"; "5 87"; "5__87"; "_587"; "587_"; "+ 587"; "+"; " "; "25.0"]
  = [None; None; None; None; None; None; None; None; None].
Proof. reflexivity. Qed.

Example int_spaces :
  int (String (chr 160) (String (chr 9) "25")) = Some 25
  /\ int (String (chr 133) "25") = Some 25
  /\ int (String (chr 28) "25") = None
  /\ int (String "2" (String "5" (String (chr 0) EmptyString))) = None.
Proof. repeat split; reflexivity. Qed.

Example repr_examples :
  repr "abc" = String quote1 ("abc" ++ String quote1 EmptyString)
  /\ repr "a'b" = String quote2 ("a'b" ++ String quote2 EmptyString)
  /\ repr (String (chr 10) (String (chr 160) EmptyString))
     = String quote1 ("\n\xa0" ++ String quote1 EmptyString).
Proof. repeat split; reflexivity. Qed.

Example str_int_examples :
  map str_int [0; 7; 123; -5] = ["0"; "7"; "123"; "-5"].
Proof. reflexivity. Qed.

Ltac case_outcome o :=
  let x := fresh "x" in
  let m := fresh "m" in
  destruct o as [x | m]; cbn.

Ltac settle :=
  unfold set_open, log_event, print; cbn;
  rewrite ?app_nil_r, <- ?app_assoc; reflexivity.

Lemma send_email_smtp_run w to_emails subject html_content es st :
  exists line,
    send_email_smtp w to_emails subject html_content es st
    = (Return (fst (session w to_emails subject html_content es)),
       after st (snd (session w to_emails subject html_content es))
         (if fst (session w to_emails subject html_content es) then [] else [line])).
Proof.
  destruct st as [n evs out0].
  unfold send_email_smtp, session, try_except, bind, with_as, int_M, SMTP_new, after.
  destruct (int (SMTP_PORT es)) as [port |]; cbn.
  2: { eexists. settle. }
  destruct (truthy (SMTP_SERVER es)); cbn.
  2: { eexists. settle. }
  case_outcome (connect w (SMTP_SERVER es) port).
  2: { eexists. settle. }
  case_outcome (starttls w).
  2: { case_outcome (quit w); eexists; settle. }
  case_outcome (login w (SMTP_USERNAME es) (SMTP_PASSWORD es)).
  2: { case_outcome (quit w); eexists; settle. }
  unfold MIMEMultipart_as_string.
  case_outcome (as_string w (build_message subject html_content es)).
  2: { case_outcome (quit w); eexists; settle. }
  case_outcome (sendmail w (SMTP_USERNAME es) to_emails x2);
    case_outcome (quit w);
    try (eexists; settle).
  exists EmptyString. settle.
Qed.

Lemma truthy_nonempty s : s <> EmptyString -> truthy s = true.
Proof. destruct s; [congruence | reflexivity]. Qed.

Lemma well_formed_all r :
  well_formed r -> all (settings_fields (email_settings r)) = true.
Proof.
  intros (_ & H1 & H2 & H3 & H4 & H5). unfold all, settings_fields. cbn.
  rewrite !truthy_nonempty by assumption. reflexivity.
Qed.

Lemma some_setting_empty_all r :
  some_setting_empty r -> all (settings_fields (email_settings r)) = false.
Proof.
  unfold some_setting_empty, all, settings_fields. cbn.
  intros [H | [H | [H | [H | H]]]]; rewrite H; cbn;
    rewrite ?andb_false_r; reflexivity.
Qed.

Lemma transport_run w r st :
  exists line,
    transport w r st
    = (Return (fst (request_session w r)),
       after st (snd (request_session w r))
         (if fst (request_session w r) then [] else [line])).
Proof. apply send_email_smtp_run. Qed.

Lemma post_send_email_via_transport w r st b st' :
  well_formed r ->
  transport w r st = (Return b, st') ->
  post_send_email w r st
  = (if b then Json200 (success_body w r) else JsonError 500 "Failed to send email",
     st').
Proof.
  intros Hwf Hrun. pose proof (well_formed_all r Hwf) as Hall.
  destruct Hwf as (Hrec & _).
  unfold post_send_email, send_email, try_except, bind.
  destruct (recipients r) as [| a l] eqn:Erec; [congruence |].
  rewrite Hall. cbn [negb]. rewrite <- Erec.
  unfold transport in Hrun. rewrite Hrun.
  unfold success_body. destruct b; reflexivity.
Qed.

Lemma post_send_email_run w r st :
  well_formed r ->
  exists line,
    post_send_email w r st
    = (if fst (request_session w r) then Json200 (success_body w r)
       else JsonError 500 "Failed to send email",
       after st (snd (request_session w r))
         (if fst (request_session w r) then [] else [line])).
Proof.
  intros Hwf. destruct (transport_run w r st) as (line & Hrun). exists line.
  apply post_send_email_via_transport; assumption.
Qed.

Lemma post_send_email_no_recipient w r st :
  recipients r = [] ->
  post_send_email w r st
  = (JsonError 400 "At least one recipient is required", st).
Proof.
  intros H. unfold post_send_email, send_email, try_except. rewrite H. reflexivity.
Qed.

Lemma post_send_email_setting_empty w r st :
  recipients r <> [] -> some_setting_empty r ->
  post_send_email w r st = (JsonError 400 "All email settings are required", st).
Proof.
  intros Hrec Hset. unfold post_send_email, send_email, try_except.
  destruct (recipients r); [congruence |].
  rewrite (some_setting_empty_all r Hset). reflexivity.
Qed.

Example plain_address_examples :
  map plain_address ["guest@example.com"; "guest"; "@example.com"; "a@b@c"; "a@"]
  = [Some "guest@example.com"; None; None; None; None].
Proof. reflexivity. Qed.

Example isoformat_examples :
  isoformat (now obliging) = "2024-02-29T09:05:07.001250"
  /\ isoformat {| year := 5; month := 1; day := 2; hour := 3; minute := 4;
                  second := 5; microsecond := 0; in_ranges := eq_refl |}
     = "0005-01-02T03:04:05".
Proof. split; reflexivity. Qed.

Example is_iso8601_examples :
  map is_iso8601 ["2024-02-29T09:05:07.001250"; "0005-01-02T03:04:05";
                  "2023-02-29T09:05:07"; "2024-13-01T00:00:00"; "2024-02-29 09:05:07";
                  "2024-02-29T09:05:07."; "1700000000"]
  = [true; true; false; false; false; false; false].
Proof. reflexivity. Qed.

Example sample_run :
  post_send_email obliging sample_request initial
  = (Json200 (success_body obliging sample_request),
     {| open_connections := 0;
        smtp_log :=
          [Connect "smtp.example.com" 587; StartTLS;
           Login "relay@example.com" "secret";
           Sendmail "relay@example.com" ["guest@example.com"; "desk@example.com"]
             (render (request_message sample_request));
           Close];
        stdout := [] |}).
Proof. reflexivity. Qed.

Example sample_run_unreachable :
  post_send_email unreachable sample_request initial
  = (JsonError 500 "Failed to send email",
     {| open_connections := 0;
        smtp_log := [Connect "smtp.example.com" 587];
        stdout := ["Error sending email: [Errno 111] Connection refused"] |}).
Proof. reflexivity. Qed.

(** What [sendmail] returns is not looked at: recipients that the server
    refused are reported as sent to. *)
Example sample_run_choosy :
  fst (post_send_email choosy sample_request initial)
  = Json200 (success_body choosy sample_request)
  /\ Response.sent_to (success_body choosy sample_request)
     = ["guest@example.com"; "desk@example.com"].
Proof. split; reflexivity. Qed.

Example sample_run_bad_port :
  post_send_email obliging
    (with_settings (with_port "smtp" sample_settings) sample_request) initial
  = (JsonError 500 "Failed to send email",
     {| open_connections := 0;
        smtp_log := [];
        stdout := ["Error sending email: invalid literal for int() with base 10: 'smtp'"] |}).
Proof. reflexivity. Qed.

(* ------------------------------------------------------------------ *)
(** ** The transport *)

(** The transport never raises: every exception ends in its handler. *)
Lemma send_email_smtp_never_raises w to_emails subject html_content es st :
  exists b st', send_email_smtp w to_emails subject html_content es st = (Return b, st').
Proof.
  destruct (send_email_smtp_run w to_emails subject html_content es st) as (line & H).
  rewrite H. eauto.
Qed.

Lemma session_true_events w to_emails subject html_content es :
  fst (session w to_emails subject html_content es) = true ->
  exists s,
    as_string w (build_message subject html_content es) = Returns s
    /\ exists port,
        int (SMTP_PORT es) = Some port
        /\ snd (session w to_emails subject html_content es)
           = [Connect (SMTP_SERVER es) port; StartTLS;
              Login (SMTP_USERNAME es) (SMTP_PASSWORD es);
              Sendmail (SMTP_USERNAME es) to_emails s; Close].
Proof.
  unfold session.
  destruct (int (SMTP_PORT es)) as [port |]; cbn; [| discriminate].
  destruct (truthy (SMTP_SERVER es)); cbn; [| discriminate].
  case_outcome (connect w (SMTP_SERVER es) port); [| discriminate].
  case_outcome (starttls w); [| discriminate].
  case_outcome (login w (SMTP_USERNAME es) (SMTP_PASSWORD es)); [| discriminate].
  case_outcome (as_string w (build_message subject html_content es)); [| discriminate].
  case_outcome (sendmail w (SMTP_USERNAME es) to_emails x2); [| discriminate].
  case_outcome (quit w); [| discriminate].
  intros _. eauto.
Qed.

Lemma after_same st evs out : after st evs out = st -> evs = [] /\ out = [].
Proof.
  destruct st as [n l o]. unfold after. cbn. intros H.
  injection H as Hl Ho. split.
  - apply (app_inv_head l). rewrite app_nil_r. exact Hl.
  - apply (app_inv_head o). rewrite app_nil_r. exact Ho.
Qed.

(** A call of the transport is visible in the state: it reaches the
    server, or it prints its error. *)
Lemma send_email_smtp_leaves_a_trace w to_emails subject html_content es st :
  snd (send_email_smtp w to_emails subject html_content es st) <> st.
Proof.
  destruct (send_email_smtp_run w to_emails subject html_content es st) as (line & H).
  rewrite H. cbn [snd]. clear H. intros Hsame.
  apply after_same in Hsame. destruct Hsame as (Hevs & Hout).
  destruct (fst (session w to_emails subject html_content es)) eqn:Hok.
  - apply session_true_events in Hok. destruct Hok as (s & _ & port & _ & Hs).
    rewrite Hs in Hevs. discriminate.
  - discriminate.
Qed.

Lemma session_raises_false w r :
  smtp_step_raises w r -> fst (request_session w r) = false.
Proof.
  unfold smtp_step_raises, request_session, request_message, session, raises.
  intros H.
  destruct (int (SMTP_PORT (email_settings r))) as [port |]; [| reflexivity].
  destruct (truthy (SMTP_SERVER (email_settings r))); [| reflexivity].
  destruct H as [(p & Hp & m & Hm) | [(m & Hm) | [(m & Hm) | (s & Hs & m & Hm)]]].
  - injection Hp as <-. rewrite Hm. reflexivity.
  - rewrite Hm. destruct (connect w _ port); reflexivity.
  - rewrite Hm. destruct (connect w _ port); [destruct (starttls w) |]; reflexivity.
  - rewrite Hs, Hm.
    destruct (connect w _ port); [destruct (starttls w) |]; [destruct (login w _ _) | |];
      reflexivity.
Qed.

(* ------------------------------------------------------------------ *)
(** ** The two checks of the handler *)

(** C4. A parsed request whose recipients list is empty is answered
    400 with the detail "At least one recipient is required", whatever
    its other fields hold, and the state is returned as it was: nothing
    reaches the server.  The transport is not called, since any call of
    it from that state would have changed the state. *)
Theorem empty_recipients_rejected w r st :
  recipients r = [] ->
  post_send_email w r st
  = (JsonError 400 "At least one recipient is required", st)
  /\ (forall to_emails subject html_content es,
        snd (send_email_smtp w to_emails subject html_content es st) <> st).
Proof.
  intros H. split; [apply post_send_email_no_recipient; exact H |].
  intros. apply send_email_smtp_leaves_a_trace.
Qed.

Lemma empty_recipients_rejected_witness :
  recipients (with_recipients [] sample_request) = []
  /\ post_send_email obliging (with_recipients [] sample_request) initial
     = (JsonError 400 "At least one recipient is required", initial).
Proof.
  split; [reflexivity |].
  apply (proj1 (empty_recipients_rejected obliging
                  (with_recipients [] sample_request) initial eq_refl)).
Defined.

(** C5, as amended. A parsed request that names a recipient and in
    which one of the five settings is empty is answered 400 with the
    detail "All email settings are required", and the state is returned
    as it was.  The transport is not called, since any call of it from
    that state would have changed the state. *)
Theorem empty_setting_rejected w r st :
  recipients r <> [] ->
  some_setting_empty r ->
  post_send_email w r st = (JsonError 400 "All email settings are required", st)
  /\ (forall to_emails subject html_content es,
        snd (send_email_smtp w to_emails subject html_content es st) <> st).
Proof.
  intros Hrec Hset. split; [apply post_send_email_setting_empty; assumption |].
  intros. apply send_email_smtp_leaves_a_trace.
Qed.

Lemma empty_setting_rejected_witness :
  let r := with_settings (with_port EmptyString sample_settings) sample_request in
  recipients r <> [] /\ some_setting_empty r
  /\ post_send_email obliging r initial
     = (JsonError 400 "All email settings are required", initial).
Proof.
  cbn zeta.
  assert (H1 : recipients (with_settings (with_port EmptyString sample_settings)
                             sample_request) <> []) by discriminate.
  assert (H2 : some_setting_empty (with_settings (with_port EmptyString sample_settings)
                                     sample_request)) by (right; left; reflexivity).
  split; [exact H1 | split; [exact H2 |]].
  exact (proj1 (empty_setting_rejected obliging _ initial H1 H2)).
Defined.

(** C5 as it is written fails: with no recipient and an empty setting
    the detail is that of the first check. *)
Lemma empty_setting_other_detail :
  let r := with_recipients []
             (with_settings (with_server EmptyString sample_settings) sample_request) in
  some_setting_empty r
  /\ post_send_email obliging r initial
     = (JsonError 400 "At least one recipient is required", initial)
  /\ fst (post_send_email obliging r initial)
     <> JsonError 400 "All email settings are required".
Proof.
  cbn zeta. split; [left; reflexivity |]. split; [reflexivity |].
  cbn. discriminate.
Qed.

(* ------------------------------------------------------------------ *)
(** ** Failures of the transport *)

(** C3. For a well-formed request for which a step of the SMTP dialogue
    raises (connection, TLS upgrade, authentication or submission), the
    transport returns [False] (it does not raise, and it reports
    nothing else), and the endpoint answers 500 with the detail
    "Failed to send email". *)
Theorem transport_failure_is_500 w r st :
  well_formed r ->
  smtp_step_raises w r ->
  exists st',
    send_email_smtp w (recipients r) (make_subject r) (HTML_PAGE r) (email_settings r) st
    = (Return false, st')
    /\ post_send_email w r st = (JsonError 500 "Failed to send email", st').
Proof.
  intros Hwf Hraise.
  destruct (transport_run w r st) as (line & Hrun).
  rewrite (session_raises_false w r Hraise) in Hrun.
  eexists. split; [exact Hrun |].
  apply (post_send_email_via_transport w r st false _ Hwf Hrun).
Qed.

Lemma sample_request_well_formed : well_formed sample_request.
Proof. repeat split; discriminate. Qed.

Lemma transport_failure_is_500_witness :
  well_formed sample_request
  /\ smtp_step_raises unreachable sample_request
  /\ exists st',
      send_email_smtp unreachable (recipients sample_request)
        (make_subject sample_request) (HTML_PAGE sample_request)
        (email_settings sample_request) initial
      = (Return false, st')
      /\ post_send_email unreachable sample_request initial
         = (JsonError 500 "Failed to send email", st').
Proof.
  assert (H : smtp_step_raises unreachable sample_request).
  { left. exists 587. split; [reflexivity |]. eexists. reflexivity. }
  split; [exact sample_request_well_formed | split; [exact H |]].
  exact (transport_failure_is_500 unreachable sample_request initial
           sample_request_well_formed H).
Defined.




(* ------------------------------------------------------------------ *)
(** ** The order of the SMTP dialogue *)



(* ------------------------------------------------------------------ *)
(** ** The message and the envelope *)

Lemma session_sendmail w to_emails subject html_content es f t s :
  In (Sendmail f t s) (snd (session w to_emails subject html_content es)) ->
  f = SMTP_USERNAME es /\ t = to_emails
  /\ as_string w (build_message subject html_content es) = Returns s.
Proof.
  unfold session.
  destruct (int (SMTP_PORT es)) as [port |]; cbn; [| tauto].
  destruct (truthy (SMTP_SERVER es)); cbn; [| tauto].
  destruct (connect w (SMTP_SERVER es) port); cbn; [| intuition discriminate].
  destruct (starttls w); cbn; [| intuition discriminate].
  destruct (login w (SMTP_USERNAME es) (SMTP_PASSWORD es)); cbn;
    [| intuition discriminate].
  destruct (as_string w (build_message subject html_content es)) as [s0 | m]; cbn;
    [| intuition discriminate].
  assert (Hin : In (Sendmail f t s)
                  [Connect (SMTP_SERVER es) port; StartTLS;
                   Login (SMTP_USERNAME es) (SMTP_PASSWORD es);
                   Sendmail (SMTP_USERNAME es) to_emails s0; Close] ->
                f = SMTP_USERNAME es /\ t = to_emails /\ Returns s0 = Returns s).
  { cbn. intros [H | [H | [H | [H | [H | []]]]]]; try discriminate.
    injection H as <- <- <-. auto. }
  destruct (sendmail w (SMTP_USERNAME es) to_emails s0), (quit w); exact Hin.
Qed.

Lemma prefix_char c needle : forall hay,
  prefix needle hay = true -> contains_char c needle = true ->
  contains_char c hay = true.
Proof.
  induction needle as [| a needle IH]; intros hay Hp Hc; [discriminate |].
  destruct hay as [| b hay]; [discriminate |]. cbn in Hp.
  destruct (ascii_dec a b) as [<- | _]; [| discriminate].
  cbn in Hc |- *. destruct (Ascii.eqb a c); [reflexivity |].
  cbn in Hc |- *. eauto.
Qed.

Lemma contains_char_of needle c : forall hay,
  contains needle hay = true -> contains_char c needle = true ->
  contains_char c hay = true.
Proof.
  induction hay as [| b hay IH]; intros Hin Hc.
  - cbn in Hin. rewrite orb_false_r in Hin. eapply prefix_char; eassumption.
  - cbn [contains] in Hin. apply orb_true_iff in Hin. destruct Hin as [Hp | Hin].
    + eapply prefix_char; eassumption.
    + cbn. rewrite (IH Hin Hc). apply orb_true_r.
Qed.

(** No string with an at sign occurs in the placeholder. *)
Lemma placeholder_holds_no_address a :
  contains_char at_sign a = true -> contains a To_placeholder = false.
Proof.
  intros Hat. destruct (contains a To_placeholder) eqn:E; [| reflexivity].
  pose proof (contains_char_of a at_sign To_placeholder E Hat) as H.
  cbv in H. discriminate.
Qed.

(** C1. For a request that passes the checks, the message has one To
    header and it is the placeholder "undisclosed-recipients:;", in
    which no address of the recipients list occurs; and every
    submission the run makes carries the SMTP_USERNAME as envelope
    sender, the recipients list itself as envelope recipients, and the
    serialisation of that message.  When the request is answered 200
    such a submission was made. *)
Theorem recipients_only_in_envelope w r st :
  well_formed r ->
  get_header "To" (request_message r) = Some "undisclosed-recipients:;"
  /\ get_all "To" (request_message r) = ["undisclosed-recipients:;"]
  /\ (forall a, In a (recipients r) -> contains_char at_sign a = true ->
                contains a "undisclosed-recipients:;" = false)
  /\ exists evs out,
      snd (post_send_email w r st) = after st evs out
      /\ (forall f t s, In (Sendmail f t s) evs ->
            f = SMTP_USERNAME (email_settings r) /\ t = recipients r
            /\ as_string w (request_message r) = Returns s)
      /\ (forall body, fst (post_send_email w r st) = Json200 body ->
            exists s, In (Sendmail (SMTP_USERNAME (email_settings r)) (recipients r) s)
                        evs).
Proof.
  intros Hwf. split; [reflexivity |]. split; [reflexivity |].
  split; [intros a _; apply placeholder_holds_no_address |].
  destruct (post_send_email_run w r st Hwf) as (line & Hrun).
  do 2 eexists. rewrite Hrun. cbn [fst snd]. split; [reflexivity |]. split.
  - intros f t s. apply session_sendmail.
  - intros body Hbody.
    destruct (fst (request_session w r)) eqn:Hok; [| discriminate].
    apply session_true_events in Hok. destruct Hok as (s & _ & port & _ & Hevs).
    exists s. unfold request_session. rewrite Hevs. cbn. auto.
Qed.

Lemma recipients_only_in_envelope_witness :
  well_formed sample_request
  /\ get_all "To" (request_message sample_request) = ["undisclosed-recipients:;"]
  /\ exists evs out,
      snd (post_send_email obliging sample_request initial) = after initial evs out
      /\ forall f t s, In (Sendmail f t s) evs ->
           f = "relay@example.com" /\ t = ["guest@example.com"; "desk@example.com"]
           /\ as_string obliging (request_message sample_request) = Returns s.
Proof.
  split; [exact sample_request_well_formed |].
  destruct (recipients_only_in_envelope obliging sample_request initial
              sample_request_well_formed) as (_ & Hall & _ & evs & out & Hsnd & Henv & _).
  split; [exact Hall |]. exists evs, out. split; [exact Hsnd | exact Henv].
Defined.

(* ------------------------------------------------------------------ *)
(** ** The timestamp of the request *)

Lemma post_send_email_200 w r st body st' :
  post_send_email w r st = (Json200 body, st') -> body = success_body w r.
Proof.
  unfold post_send_email, send_email, try_except, bind.
  destruct (recipients r) as [| a l] eqn:Erec; [discriminate |].
  destruct (all (settings_fields (email_settings r))); cbn [negb]; [| discriminate].
  rewrite <- Erec.
  destruct (send_email_smtp_never_raises w (recipients r) (make_subject r)
              (HTML_PAGE r) (email_settings r) st) as (b & st1 & Hrun).
  rewrite Hrun. destruct b; cbn; [| discriminate].
  intros H. injection H as <- _. reflexivity.
Qed.

(** C9. Two parsed requests that differ only in their timestamp get
    the same answer and leave the same state (the same calls on the
    server with the same envelope and message, the same output), pass
    or fail the same checks, and have the same message built; and the
    timestamp of a 200 answer is the server's clock in ISO format, not
    a field of the request. *)
Theorem timestamp_is_dead_input w r1 r2 st :
  same_but_timestamp r1 r2 ->
  post_send_email w r1 st = post_send_email w r2 st
  /\ request_message r1 = request_message r2
  /\ transport w r1 st = transport w r2 st
  /\ (forall body st', post_send_email w r1 st = (Json200 body, st') ->
        Response.timestamp body = isoformat (now w)).
Proof.
  intros (H1 & H2 & H3 & H4 & H5 & H6).
  destruct r1, r2; cbn in *; subst.
  split; [reflexivity |]. split; [reflexivity |]. split; [reflexivity |].
  intros body st' H. apply post_send_email_200 in H. subst body. reflexivity.
Qed.

Lemma timestamp_is_dead_input_witness :
  same_but_timestamp sample_request (with_timestamp 0 sample_request)
  /\ timestamp sample_request <> timestamp (with_timestamp 0 sample_request)
  /\ post_send_email obliging sample_request initial
     = post_send_email obliging (with_timestamp 0 sample_request) initial.
Proof.
  assert (H : same_but_timestamp sample_request (with_timestamp 0 sample_request))
    by (repeat split).
  split; [exact H |]. split; [discriminate |].
  exact (proj1 (timestamp_is_dead_input obliging sample_request
                  (with_timestamp 0 sample_request) initial H)).
Defined.

(* ------------------------------------------------------------------ *)
(** ** The subject *)

Lemma of_uint_acc_value l : forall acc,
  Z.pos (Pos.of_uint_acc l acc) = uint_value (Z.pos acc) l.
Proof.
  induction l; intros acc; cbn [Pos.of_uint_acc uint_value];
    try rewrite IHl; try reflexivity; f_equal; lia.
Qed.

Lemma of_uint_value d : Z.of_N (Pos.of_uint d) = uint_value 0 d.
Proof.
  induction d; cbn [Pos.of_uint uint_value Z.of_N]; try reflexivity;
    try (rewrite of_uint_acc_value; reflexivity).
  exact IHd.
Qed.

Lemma int_digits_of_uint d : forall acc,
  int_digits acc (NilEmpty.string_of_uint d) = Some (uint_value acc d, EmptyString).
Proof.
  induction d; intros acc; cbn [NilEmpty.string_of_uint uint_value];
    try reflexivity;
    (cbn [int_digits];
     match goal with
     | |- context [is_digit ?c] => change (is_digit c) with true
     end;
     cbv iota; rewrite IHd; do 2 f_equal).
  f_equal. change (digit_value "0") with 0. lia.
Qed.

Lemma int_unsigned_of_uint d :
  d <> Decimal.Nil ->
  int_unsigned (NilEmpty.string_of_uint d) = Some (uint_value 0 d).
Proof.
  intros Hd. destruct d; [congruence | ..];
    cbn [NilEmpty.string_of_uint int_unsigned];
    match goal with
    | |- context [is_digit ?c] => change (is_digit c) with true
    end;
    cbv iota; rewrite int_digits_of_uint; reflexivity.
Qed.

(** The decimal rendering reads back as the number. *)
Lemma int_str_int n : int (str_int n) = Some n.
Proof.
  destruct n as [| p | p]; [reflexivity | |].
  - unfold str_int. cbn [Z.to_int NilZero.string_of_int].
    pose proof (DecimalPos.Unsigned.to_uint_nonnil p) as Hnil.
    pose proof (int_unsigned_of_uint (Pos.to_uint p) Hnil) as Hread.
    rewrite <- of_uint_value, DecimalPos.Unsigned.of_to in Hread.
    unfold NilZero.string_of_uint.
    destruct (Pos.to_uint p); [congruence | ..]; exact Hread.
  - unfold str_int. cbn [Z.to_int NilZero.string_of_int].
    pose proof (DecimalPos.Unsigned.to_uint_nonnil p) as Hnil.
    pose proof (int_unsigned_of_uint (Pos.to_uint p) Hnil) as Hread.
    rewrite <- of_uint_value, DecimalPos.Unsigned.of_to in Hread.
    unfold NilZero.string_of_uint.
    destruct (Pos.to_uint p); [congruence | ..];
      (change (int (String "-" ?s)) with (option_map Z.opp (int_unsigned s));
       rewrite Hread; reflexivity).
Qed.


(** C6. For a request that passes the checks, the message has one
    Subject header, and it is "Order Confirmed - Payment ID: " followed
    by the decimal rendering of the payment id and nothing else (the
    rendering reads back as the payment id); every submission the run
    makes carries the serialisation of that message. *)
Theorem subject_is_payment_id w r st :
  well_formed r ->
  get_header "Subject" (request_message r)
  = Some ("Order Confirmed - Payment ID: " ++ str_int (payment_id r))
  /\ get_all "Subject" (request_message r)
     = ["Order Confirmed - Payment ID: " ++ str_int (payment_id r)]
  /\ int (str_int (payment_id r)) = Some (payment_id r)
  /\ exists evs out,
      snd (post_send_email w r st) = after st evs out
      /\ forall f t s, In (Sendmail f t s) evs ->
           as_string w (request_message r) = Returns s.
Proof.
  intros Hwf. split; [reflexivity |]. split; [reflexivity |].
  split; [apply int_str_int |].
  destruct (post_send_email_run w r st Hwf) as (line & Hrun).
  do 2 eexists. rewrite Hrun. cbn [snd]. split; [reflexivity |].
  intros f t s Hin. apply session_sendmail in Hin. tauto.
Qed.

Lemma subject_is_payment_id_witness :
  well_formed sample_request
  /\ get_all "Subject" (request_message sample_request)
     = ["Order Confirmed - Payment ID: 4711"].
Proof.
  split; [exact sample_request_well_formed |].
  exact (proj1 (proj2 (subject_is_payment_id obliging sample_request initial
                         sample_request_well_formed))).
Defined.

Example subject_of_a_negative_id :
  make_subject (with_timestamp 0
                  {| recipients := recipients sample_request;
                     payment_id := -12;
                     timestamp := 0;
                     customer_details := customer_details sample_request;
                     booking_details := booking_details sample_request;
                     HTML_PAGE := HTML_PAGE sample_request;
                     email_settings := sample_settings |})
  = "Order Confirmed - Payment ID: -12".
Proof. reflexivity. Qed.

(* ------------------------------------------------------------------ *)
(** ** The timestamp of the answer *)

Lemma digit_char_digit k :
  0 <= k <= 9 -> is_digit (digit_char k) = true /\ digit_value (digit_char k) = k.
Proof.
  intros H.
  assert (Hk : k = 0 \/ k = 1 \/ k = 2 \/ k = 3 \/ k = 4 \/ k = 5 \/ k = 6
               \/ k = 7 \/ k = 8 \/ k = 9) by lia.
  repeat (destruct Hk as [-> | Hk]; [split; reflexivity |]).
  subst k. split; reflexivity.
Qed.

Lemma read_digits_zero_padded w : forall n acc rest,
  read_digits w acc (zero_padded w n ++ rest)
  = Some (acc * 10 ^ Z.of_nat w + n mod 10 ^ Z.of_nat w, rest).
Proof.
  induction w as [| w IH]; intros n acc rest.
  - cbn. rewrite Z.mod_1_r. do 2 f_equal. lia.
  - cbn [zero_padded append read_digits].
    assert (Hd : 0 <= (n / 10 ^ Z.of_nat w) mod 10 <= 9)
      by (pose proof (Z.mod_pos_bound (n / 10 ^ Z.of_nat w) 10); lia).
    destruct (digit_char_digit _ Hd) as (Hdig & Hval).
    rewrite Hdig, Hval, IH. do 2 f_equal.
    rewrite Nat2Z.inj_succ, Z.pow_succ_r by lia.
    assert (Hpow : 0 < 10 ^ Z.of_nat w) by (apply Z.pow_pos_nonneg; lia).
    rewrite (Z.mul_comm 10 (10 ^ Z.of_nat w)).
    rewrite (Z.rem_mul_r n (10 ^ Z.of_nat w) 10) by lia.
    ring.
Qed.

Lemma read_field_zero_padded w sep n rest :
  0 <= n < 10 ^ Z.of_nat w ->
  read_field w sep (zero_padded w n ++ String sep rest) = Some (n, rest).
Proof.
  intros Hn. unfold read_field. rewrite read_digits_zero_padded.
  rewrite Ascii.eqb_refl, Z.mod_small by lia. reflexivity.
Qed.

Lemma all_digits_zero_padded w n : all_digits (zero_padded w n) = true.
Proof.
  induction w as [| w IH]; [reflexivity |]. cbn [zero_padded all_digits].
  assert (Hd : 0 <= (n / 10 ^ Z.of_nat w) mod 10 <= 9)
    by (pose proof (Z.mod_pos_bound (n / 10 ^ Z.of_nat w) 10); lia).
  rewrite (proj1 (digit_char_digit _ Hd)), IH. reflexivity.
Qed.

Lemma between_iff lo hi n : between lo hi n = true <-> lo <= n <= hi.
Proof. unfold between. rewrite andb_true_iff, !Z.leb_le. tauto. Qed.

Lemma days_in_month_bound y m : 28 <= days_in_month y m <= 31.
Proof.
  unfold days_in_month.
  destruct (m =? 2); [destruct (is_leap y); lia |].
  destruct ((m =? 4) || (m =? 6) || (m =? 9) || (m =? 11)); lia.
Qed.

(** [isoformat] always prints a timestamp in the ISO 8601 format. *)
Lemma isoformat_is_iso8601 d : is_iso8601 (isoformat d) = true.
Proof.
  destruct d as [y mo dd h mi s us Hok]. unfold isoformat.
  cbn [year month day hour minute second microsecond].
  unfold datetime_ok in Hok. rewrite !andb_true_iff in Hok.
  destruct Hok as ((((((Hy & Hmo) & Hd) & Hh) & Hmi) & Hs) & Hus).
  pose proof (days_in_month_bound y mo) as Hdim.
  pose proof Hy as Hy'. pose proof Hmo as Hmo'. pose proof Hd as Hd'.
  pose proof Hh as Hh'. pose proof Hmi as Hmi'. pose proof Hs as Hs'.
  apply between_iff in Hy', Hmo', Hd', Hh', Hmi', Hs', Hus.
  unfold is_iso8601.
  cbn [append].
  rewrite (read_field_zero_padded 4 "-" y) by (change (10 ^ Z.of_nat 4) with 10000; lia).
  cbn [bind_option].
  rewrite (read_field_zero_padded 2 "-" mo) by (change (10 ^ Z.of_nat 2) with 100; lia).
  cbn [bind_option].
  rewrite (read_field_zero_padded 2 "T" dd) by (change (10 ^ Z.of_nat 2) with 100; lia).
  cbn [bind_option].
  rewrite (read_field_zero_padded 2 ":" h) by (change (10 ^ Z.of_nat 2) with 100; lia).
  cbn [bind_option].
  rewrite (read_field_zero_padded 2 ":" mi) by (change (10 ^ Z.of_nat 2) with 100; lia).
  cbn [bind_option].
  rewrite read_digits_zero_padded. cbn [bind_option].
  change (10 ^ Z.of_nat 2) with 100.
  rewrite Z.mul_0_l, Z.add_0_l, Z.mod_small by lia.
  rewrite Hmo, Hd, Hh, Hmi, Hs. cbn [andb].
  destruct (us =? 0); [reflexivity |].
  cbn [is_fraction]. change (truthy (zero_padded 6 us)) with true. rewrite all_digits_zero_padded. reflexivity.
Qed.

(** C2. For a well-formed request for which the transport returns
    [True], the endpoint answers 200 with the message "Email sent
    successfully", the recipients list of the request as [sent_to], in
    the same order, and as timestamp the clock in ISO 8601 format. *)
Theorem success_is_200 w r st st' :
  well_formed r ->
  send_email_smtp w (recipients r) (make_subject r) (HTML_PAGE r) (email_settings r) st
  = (Return true, st') ->
  post_send_email w r st
  = (Json200 {| Response.message := "Email sent successfully";
                Response.sent_to := recipients r;
                Response.timestamp := isoformat (now w) |},
     st')
  /\ is_iso8601 (isoformat (now w)) = true.
Proof.
  intros Hwf Hrun. split; [| apply isoformat_is_iso8601].
  apply (post_send_email_via_transport w r st true st' Hwf Hrun).
Qed.

Lemma success_is_200_witness :
  well_formed sample_request
  /\ post_send_email obliging sample_request initial
     = (Json200 {| Response.message := "Email sent successfully";
                   Response.sent_to := ["guest@example.com"; "desk@example.com"];
                   Response.timestamp := "2024-02-29T09:05:07.001250" |},
        snd (transport obliging sample_request initial))
  /\ is_iso8601 "2024-02-29T09:05:07.001250" = true.
Proof.
  split; [exact sample_request_well_formed |].
  apply (success_is_200 obliging sample_request initial
           (snd (transport obliging sample_request initial))).
  - exact sample_request_well_formed.
  - reflexivity.
Defined.

(* ------------------------------------------------------------------ *)
(** ** Intake *)

Lemma validate_list_invalid (validate_email : string -> option string) a :
  forall l, In a l -> validate_email a = None -> validate_list validate_email l = None.
Proof.
  induction l as [| b l IH]; intros Hin Hbad; [destruct Hin |].
  cbn [validate_list]. destruct Hin as [-> | Hin].
  - rewrite Hbad. reflexivity.
  - rewrite (IH Hin Hbad). destruct (validate_email b); reflexivity.
Qed.

Lemma validate_list_all (validate_email : string -> option string) :
  forall l l', validate_list validate_email l = Some l' ->
               Forall2 (fun a a' => validate_email a = Some a') l l'.
Proof.
  induction l as [| b l IH]; intros l' H; cbn [validate_list] in H.
  - injection H as <-. constructor.
  - destruct (validate_email b) as [b' |] eqn:Eb; [| discriminate].
    destruct (validate_list validate_email l) as [l1 |]; [| discriminate].
    injection H as <-. constructor; [exact Eb | apply IH; reflexivity].
Qed.

(** C8. A body with a recipient that is not a valid address is answered
    with an error (422) and the state is returned as it was: the handler
    is not called and nothing is sent.  A body is accepted only with
    every one of its recipients valid, and the handler then gets all of
    them, each in its validated form, in the same order: none is
    dropped. *)
Theorem invalid_recipient_rejected w (validate_email : string -> option string) body st :
  ((exists a, In a (recipients body) /\ validate_email a = None) ->
   route_send_email w validate_email body st = (Unprocessable422, st))
  /\ (forall request,
        parse_request validate_email body = Some request ->
        Forall2 (fun a a' => validate_email a = Some a')
          (recipients body) (recipients request)).
Proof.
  split.
  - intros (a & Hin & Hbad). unfold route_send_email, parse_request.
    rewrite (validate_list_invalid validate_email a _ Hin Hbad). reflexivity.
  - intros request. unfold parse_request.
    destruct (validate_list validate_email (recipients body)) as [rs |] eqn:E;
      [| discriminate].
    destruct (validate_email (email (customer_details body))); [| discriminate].
    intros H. injection H as <-. cbn [recipients].
    apply validate_list_all. exact E.
Qed.

Lemma invalid_recipient_rejected_witness :
  let body := with_recipients ["guest@example.com"; "front desk"] sample_request in
  (exists a, In a (recipients body) /\ plain_address a = None)
  /\ route_send_email obliging plain_address body initial = (Unprocessable422, initial).
Proof.
  cbn zeta.
  assert (H : exists a,
             In a (recipients (with_recipients ["guest@example.com"; "front desk"]
                                 sample_request))
             /\ plain_address a = None).
  { exists "front desk". split; [right; left; reflexivity | reflexivity]. }
  split; [exact H |].
  exact (proj1 (invalid_recipient_rejected obliging plain_address _ initial) H).
Defined.

Example valid_recipients_accepted :
  route_send_email obliging plain_address sample_request initial
  = post_send_email obliging sample_request initial.
Proof. reflexivity. Qed.

(* ------------------------------------------------------------------ *)
(** ** Strings that [int()] rejects *)

Lemma skip_spaces_foreign s :
  has_foreign s = true -> has_foreign (skip_spaces s) = true.
Proof.
  induction s as [| c s IH]; [discriminate |]. cbn [skip_spaces has_foreign].
  destruct (int_space c) eqn:Hsp; [| cbn [has_foreign]; tauto].
  unfold numeral_char. rewrite Hsp, orb_true_r. cbn. exact IH.
Qed.

Lemma foreign_tail c s :
  numeral_char c = true -> has_foreign (String c s) = true -> has_foreign s = true.
Proof. cbn [has_foreign]. intros ->. cbn. tauto. Qed.

Lemma digit_numeral c : is_digit c = true -> numeral_char c = true.
Proof. unfold numeral_char. intros ->. reflexivity. Qed.

Lemma int_digits_foreign n : forall s acc,
  (String.length s <= n)%nat ->
  has_foreign s = true ->
  match int_digits acc s with
  | Some (_, rest) => has_foreign rest = true
  | None => True
  end.
Proof.
  induction n as [| n IH]; intros s acc Hlen Hf.
  - destruct s; [discriminate | cbn in Hlen; lia].
  - destruct s as [| c s]; [discriminate |]. cbn [int_digits].
    cbn [String.length] in Hlen.
    destruct (is_digit c) eqn:Hd.
    + apply IH; [lia |]. apply (foreign_tail c); [apply digit_numeral |]; assumption.
    + destruct (code c =? 95) eqn:Hu; [| exact Hf].
      assert (Hs : has_foreign s = true).
      { apply (foreign_tail c); [| exact Hf].
        unfold numeral_char. rewrite Hu. apply orb_true_r. }
      destruct s as [| d s]; [exact I |].
      destruct (is_digit d) eqn:Hd'; [| exact I].
      cbn [String.length] in Hlen. apply IH; [lia |].
      apply (foreign_tail d); [apply digit_numeral |]; assumption.
Qed.

Lemma int_unsigned_foreign s : has_foreign s = true -> int_unsigned s = None.
Proof.
  intros Hf. destruct s as [| c s]; [reflexivity |]. cbn [int_unsigned].
  destruct (is_digit c) eqn:Hd; [| reflexivity].
  assert (Hs : has_foreign s = true)
    by (apply (foreign_tail c); [apply digit_numeral |]; assumption).
  pose proof (int_digits_foreign (String.length s) s (digit_value c) (le_n _) Hs) as H.
  destruct (int_digits (digit_value c) s) as [[v rest] |]; [| reflexivity].
  apply skip_spaces_foreign in H.
  destruct (skip_spaces rest); [discriminate | reflexivity].
Qed.

(** A string with a character that is not a digit, white space, a sign
    or an underscore is rejected by [int()]. *)
Lemma int_foreign s : has_foreign s = true -> int s = None.
Proof.
  intros Hf. apply skip_spaces_foreign in Hf. unfold int.
  destruct (skip_spaces s) as [| c s']; [reflexivity |].
  destruct (code c =? 43) eqn:Hplus.
  - apply int_unsigned_foreign. apply (foreign_tail c); [| exact Hf].
    unfold numeral_char. rewrite Hplus. rewrite !orb_true_r. reflexivity.
  - destruct (code c =? 45) eqn:Hminus.
    + rewrite int_unsigned_foreign; [reflexivity |].
      apply (foreign_tail c); [| exact Hf].
      unfold numeral_char. rewrite Hminus. rewrite !orb_true_r. reflexivity.
    + apply int_unsigned_foreign. exact Hf.
Qed.

Example foreign_ports :
  map has_foreign ["smtp"; "25.0"; "0x19"; "587"; " +5_87 "]
  = [true; true; true; false; false].
Proof. reflexivity. Qed.

(* ------------------------------------------------------------------ *)
(** ** The transport, exactly *)

Lemma send_email_smtp_exact w to_emails subject html_content es st :
  send_email_smtp w to_emails subject html_content es st
  = (Return (fst (session w to_emails subject html_content es)),
     after st (snd (session w to_emails subject html_content es))
       (session_output w to_emails subject html_content es)).
Proof.
  destruct st as [n evs out0].
  unfold send_email_smtp, session, session_output, session_error, on_exit,
    try_except, bind, with_as, int_M, SMTP_new, after.
  destruct (int (SMTP_PORT es)) as [port |]; cbn; [| settle].
  destruct (truthy (SMTP_SERVER es)); cbn; [| settle].
  case_outcome (connect w (SMTP_SERVER es) port); [| settle].
  case_outcome (starttls w); [| case_outcome (quit w); settle].
  case_outcome (login w (SMTP_USERNAME es) (SMTP_PASSWORD es));
    [| case_outcome (quit w); settle].
  unfold MIMEMultipart_as_string.
  case_outcome (as_string w (build_message subject html_content es));
    [| case_outcome (quit w); settle].
  case_outcome (sendmail w (SMTP_USERNAME es) to_emails x2);
    case_outcome (quit w); settle.
Qed.


Lemma all_true_iff es :
  all (settings_fields es) = true
  <-> SMTP_SERVER es <> EmptyString /\ SMTP_PORT es <> EmptyString
      /\ SMTP_USERNAME es <> EmptyString /\ SMTP_PASSWORD es <> EmptyString
      /\ SMTP_FROM_NAME es <> EmptyString.
Proof.
  unfold all, settings_fields. cbn.
  destruct (SMTP_SERVER es), (SMTP_PORT es), (SMTP_USERNAME es),
    (SMTP_PASSWORD es), (SMTP_FROM_NAME es); cbn;
    split; intros H; try discriminate; try reflexivity;
    try (repeat split; discriminate); try (exfalso; tauto).
Qed.

Lemma all_false_iff r :
  all (settings_fields (email_settings r)) = false <-> some_setting_empty r.
Proof.
  split; [| apply some_setting_empty_all].
  unfold some_setting_empty, all, settings_fields. cbn.
  destruct (SMTP_SERVER (email_settings r)); [auto |].
  destruct (SMTP_PORT (email_settings r)); [auto |].
  destruct (SMTP_USERNAME (email_settings r)); [auto |].
  destruct (SMTP_PASSWORD (email_settings r)); [auto |].
  destruct (SMTP_FROM_NAME (email_settings r)); [auto 6 |].
  cbn. discriminate.
Qed.

Lemma post_send_email_exact w r st :
  post_send_email w r st
  = match recipients r with
    | [] => (JsonError 400 "At least one recipient is required", st)
    | _ :: _ =>
        if all (settings_fields (email_settings r)) then
          (if fst (request_session w r) then Json200 (success_body w r)
           else JsonError 500 "Failed to send email",
           after st (snd (request_session w r))
             (session_output w (recipients r) (make_subject r) (HTML_PAGE r)
                (email_settings r)))
        else (JsonError 400 "All email settings are required", st)
    end.
Proof.
  unfold post_send_email, send_email, try_except, bind.
  destruct (recipients r) as [| a l] eqn:Erec; [reflexivity |].
  destruct (all (settings_fields (email_settings r))); cbn [negb]; [| reflexivity].
  rewrite <- Erec. rewrite send_email_smtp_exact. fold (request_session w r).
  unfold success_body. destruct (fst (request_session w r)); reflexivity.
Qed.

Lemma well_formed_or_not r :
  well_formed r \/ recipients r = [] \/ some_setting_empty r.
Proof.
  destruct (recipients r) as [| a l] eqn:Erec; [auto |].
  destruct (all (settings_fields (email_settings r))) eqn:Eall.
  - left. split; [rewrite Erec; discriminate | apply all_true_iff; exact Eall].
  - right. right. apply all_false_iff. exact Eall.
Qed.

Lemma well_formed_excludes r :
  well_formed r -> ~ (recipients r = [] \/ some_setting_empty r).
Proof.
  intros (Hrec & H1 & H2 & H3 & H4 & H5) [H | [H | [H | [H | [H | H]]]]]; congruence.
Qed.

Lemma after_changes w r st :
  after st (snd (request_session w r))
    (session_output w (recipients r) (make_subject r) (HTML_PAGE r) (email_settings r))
  <> st.
Proof.
  pose proof (send_email_smtp_leaves_a_trace w (recipients r) (make_subject r)
                (HTML_PAGE r) (email_settings r) st) as H.
  rewrite send_email_smtp_exact in H. exact H.
Qed.


(* ------------------------------------------------------------------ *)
(** ** More on the handler *)


(** X2. The answer is a 400 exactly when the recipients list is empty
    or one of the five settings is the empty string, and exactly then
    the state is left as it was: nothing is tried before both checks
    pass, and once they pass the transport is always called. *)
Theorem bad_request_exactly_when w r st :
  (status_of (fst (post_send_email w r st)) = 400
   <-> recipients r = [] \/ some_setting_empty r)
  /\ (snd (post_send_email w r st) = st
      <-> recipients r = [] \/ some_setting_empty r).
Proof.
  rewrite post_send_email_exact.
  destruct (recipients r) as [| a l] eqn:Erec.
  - cbn. split; split; auto.
  - destruct (all (settings_fields (email_settings r))) eqn:Eall.
    + assert (Hno : ~ (a :: l = [] \/ some_setting_empty r)).
      { intros [H | H]; [discriminate |].
        apply some_setting_empty_all in H. congruence. }
      cbn [fst snd]. split; split; intros H; try contradiction.
      * destruct (fst (request_session w r)); discriminate.
      * rewrite <- Erec in H. exfalso. exact (after_changes w r st H).
    + apply all_false_iff in Eall. cbn. split; split; auto.
Qed.

(* ------------------------------------------------------------------ *)
(** ** More on the transport *)





Lemma reporting_session f w to_emails subject html_content es :
  session (reporting f w) to_emails subject html_content es
  = session w to_emails subject html_content es
  /\ session_error (reporting f w) to_emails subject html_content es
     = session_error w to_emails subject html_content es.
Proof.
  unfold session, session_error, on_exit, reporting. cbn.
  destruct (int (SMTP_PORT es)) as [port |]; [| split; reflexivity].
  destruct (truthy (SMTP_SERVER es)); [| split; reflexivity].
  destruct (connect w (SMTP_SERVER es) port); [| split; reflexivity].
  destruct (starttls w); [| split; reflexivity].
  destruct (login w (SMTP_USERNAME es) (SMTP_PASSWORD es)); [| split; reflexivity].
  destruct (as_string w (build_message subject html_content es)) as [s | m];
    [| split; reflexivity].
  destruct (sendmail w (SMTP_USERNAME es) to_emails s); split; reflexivity.
Qed.

(** X5. What [sendmail] returns is never looked at: a world in which
    the server reports other recipients as refused (when it accepts the
    submission at all) gets the same answer, the same calls and the
    same output.  In particular the [sent_to] of a 200 lists every
    recipient of the request, refused or not. *)
Theorem refused_recipients_not_reported f w r st :
  post_send_email (reporting f w) r st = post_send_email w r st.
Proof.
  rewrite !post_send_email_exact. unfold request_session, session_output.
  destruct (reporting_session f w (recipients r) (make_subject r) (HTML_PAGE r)
              (email_settings r)) as (-> & ->).
  reflexivity.
Qed.



(** X7. The handler reads four fields of the request: the recipients,
    the payment id, the HTML page and the email settings.  Two parsed
    requests that agree on these get the same answer and leave the
    same state, whatever their customer details, booking details and
    timestamp are. *)
Theorem only_four_fields_matter w r1 r2 st :
  same_used_fields r1 r2 ->
  post_send_email w r1 st = post_send_email w r2 st.
Proof.
  intros (H1 & H2 & H3 & H4). destruct r1, r2; cbn in *; subst. reflexivity.
Qed.

Lemma only_four_fields_matter_witness :
  let r := {| recipients := recipients sample_request;
              payment_id := payment_id sample_request;
              timestamp := 1;
              customer_details :=
                {| name := "B. Other"; email := "other@example.com"; phone := "none" |};
              booking_details := {| room := "Deck 9"; dates := "never" |};
              HTML_PAGE := HTML_PAGE sample_request;
              email_settings := email_settings sample_request |} in
  same_used_fields sample_request r
  /\ customer_details sample_request <> customer_details r
  /\ post_send_email obliging sample_request initial = post_send_email obliging r initial.
Proof.
  cbn zeta. split; [repeat split |]. split; [discriminate |].
  apply only_four_fields_matter. repeat split.
Defined.

(* ------------------------------------------------------------------ *)
(** ** More on intake *)



Example invalid_customer_email_rejected :
  route_send_email obliging plain_address
    {| recipients := recipients sample_request;
       payment_id := payment_id sample_request;
       timestamp := timestamp sample_request;
       customer_details := {| name := "A. Guest"; email := "n/a"; phone := "555-0100" |};
       booking_details := booking_details sample_request;
       HTML_PAGE := HTML_PAGE sample_request;
       email_settings := email_settings sample_request |} initial
  = (Unprocessable422, initial).
Proof. reflexivity. Qed.

(* ------------------------------------------------------------------ *)
(** ** The port and the connection *)







(* ------------------------------------------------------------------ *)
(** ** Requests do not remember each other *)





(* ------------------------------------------------------------------ *)
(** ** What the message depends on *)

Lemma str_int_injective a b : str_int a = str_int b -> a = b.
Proof.
  intros H. pose proof (int_str_int a) as Ha. rewrite H, int_str_int in Ha.
  congruence.
Qed.

(** X11. Two requests build the same message exactly when they have
    the same payment id, the same HTML page and the same From text
    (display name and user name): the recipients, the password, the
    server, the port and the customer and booking details never reach
    the message, and a different payment id or page always gives a
    different message. *)
Theorem message_depends_on r1 r2 :
  request_message r1 = request_message r2
  <-> payment_id r1 = payment_id r2
      /\ HTML_PAGE r1 = HTML_PAGE r2
      /\ SMTP_FROM_NAME (email_settings r1) ++ " <"
         ++ SMTP_USERNAME (email_settings r1) ++ ">"
         = SMTP_FROM_NAME (email_settings r2) ++ " <"
           ++ SMTP_USERNAME (email_settings r2) ++ ">".
Proof.
  unfold request_message, build_message, make_subject, set_header, attach,
    MIMEMultipart_new.
  cbn [headers parts subtype app]. split.
  - intros H. injection H as Hsubject Hfrom Hpage.
    cbn [append] in Hsubject.
    repeat match type of Hsubject with
           | String _ _ = String _ _ => injection Hsubject as Hsubject
           end.
    split; [apply str_int_injective; exact Hsubject |]. split; assumption.
  - intros (-> & -> & ->). reflexivity.
Qed.
